(** * The advisory rate limiter of the Gemini fine-tuning dataset creator

    A shallow embedding of [class RateLimiter] from
    [src/Gemini-AI-Studio-Fine-Tuning-Dataset-Creator.py] and the proofs of
    the properties its specification states about it.

    Modelling choices.
    - Python dicts are finite maps ([gmap string _]); dict equality in Python
      ignores insertion order, as map equality does here.  The class
      attribute [MODELS] is kept as the list of its literal's items, because
      [_initialize_state] iterates it in that order while reading the clock.
    - Time stamps ([time.time()], a float of seconds) are rationals; the
      request counters are Python integers, hence [Z].
    - Every method is a computation in a state-and-exception monad over a
      [World]: the tracker's [state] attribute, the content of
      [rate_state.json], the records handed to [logging], and the clock.
      A raised exception keeps the mutations made before it, as in Python.
    - [rate_state.json] is absent, or holds text [json.load] rejects, or
      holds the JSON of a dict of window records (the layout [save_state]
      writes).  Text that parses to some other JSON shape, and failures of
      the file system itself, are outside the model. *)

From Stdlib Require Import QArith Lqa.
From stdpp Require Import gmap strings list fin_maps numbers.

Local Open Scope Z_scope.

(** ** Data *)

(** An entry of [MODELS]: [{'rpm': _, 'daily': _}]. *)
Record Limit := mkLimit { rpm : Z; daily : Z }.

(** An entry of [self.state]. *)
Record WindowState := mkWindowState {
  minute_start : Q;
  day_start : Q;
  minute_requests : Z;
  daily_requests : Z
}.

(** An entry of the dict [get_limits] returns. *)
Record Status := mkStatus { remaining_minute : Z; remaining_daily : Z }.

(** The class attribute [RateLimiter.MODELS]. *)
Definition MODELS : list (string * Limit) :=
  [ ("gemini-1.5-flash", mkLimit 15 1500);
    ("gemini-1.5-flash-8b", mkLimit 15 1500);
    ("gemini-1.5-pro", mkLimit 2 50);
    ("gemini-2.0-flash", mkLimit 10 1500);
    ("gemini-2.0-flash-thinking", mkLimit 10 1500) ].

(** What [rate_state.json] holds when it exists: text that [json.load]
    rejects, or the JSON of a dict of complete window records, each with
    its four numeric fields.  Text that parses to anything else (a record
    lacking a field, a value of another type, a list) is not represented:
    every statement below about a state file is about these two kinds. *)
Inductive FileContent :=
  | Malformed
  | Json (d : gmap string WindowState).

(** The three messages the class sends to [logging], by level. *)
Inductive LogRecord :=
  | LogError (model : string)
      (* logging.error(f"Unknown model: {model}") *)
  | LogWarning (model : string) (minute_left daily_left : Z)
      (* logging.warning(f"{model} - Rate limit advisory: ...") *)
  | LogInfo (model : string) (minute_left daily_left : Z).
      (* logging.info(f"{model} - Request logged. Remaining: ...") *)

(** The exceptions the class can raise, by class: a [KeyError] does not
    record the key, since a map does not keep the order in which a dict
    would meet several missing keys. *)
Inductive exn :=
  | KeyError
  | JSONDecodeError.

Record World := mkWorld {
  state : gmap string WindowState;   (* self.state *)
  state_file : option FileContent;   (* rate_state.json; None: no such file *)
  log : list LogRecord;              (* records logged so far, oldest first *)
  clock : nat -> Q;                  (* the value of the n-th call of time.time() *)
  ticks : nat                        (* calls of time.time() made so far *)
}.

(** ** The monad *)

Inductive result (A : Type) :=
  | Ok (a : A)
  | Raise (e : exn).
Arguments Ok {A} a.
Arguments Raise {A} e.

Definition M (A : Type) : Type := World -> result A * World.

#[global] Instance M_ret : MRet M := fun A a w => (Ok a, w).

#[global] Instance M_bind : MBind M := fun A B f m w =>
  match m w with
  | (Ok a, w') => f a w'
  | (Raise e, w') => (Raise e, w')
  end.

(** [time.time()] *)
Definition time_time : M Q := fun w =>
  (Ok (clock w (ticks w)),
   mkWorld (state w) (state_file w) (log w) (clock w) (S (ticks w))).

Definition logging (r : LogRecord) : M unit := fun w =>
  (Ok tt, mkWorld (state w) (state_file w) (log w ++ [r]) (clock w) (ticks w)).

Definition get_state : M (gmap string WindowState) := fun w => (Ok (state w), w).

Definition set_state (d : gmap string WindowState) : M unit := fun w =>
  (Ok tt, mkWorld d (state_file w) (log w) (clock w) (ticks w)).

(** [self.state[model]], read through the alias [model_state]. *)
Definition model_state (model : string) : M WindowState := fun w =>
  match state w !! model with
  | Some s => (Ok s, w)
  | None => (Raise KeyError, w)
  end.

(** An assignment [model_state[field] = v]: the inner dict is shared with
    [self.state], so the tracker state changes at once. *)
Definition model_state_assign (model : string) (f : WindowState -> WindowState) : M unit :=
  fun w => (Ok tt, mkWorld (alter f model (state w)) (state_file w) (log w) (clock w) (ticks w)).

Definition set_minute_start (t : Q) (s : WindowState) : WindowState :=
  mkWindowState t (day_start s) (minute_requests s) (daily_requests s).
Definition set_day_start (t : Q) (s : WindowState) : WindowState :=
  mkWindowState (minute_start s) t (minute_requests s) (daily_requests s).
Definition set_minute_requests (n : Z) (s : WindowState) : WindowState :=
  mkWindowState (minute_start s) (day_start s) n (daily_requests s).
Definition set_daily_requests (n : Z) (s : WindowState) : WindowState :=
  mkWindowState (minute_start s) (day_start s) (minute_requests s) n.

(** [self.state_file.exists()] followed, when it does, by [json.load]. *)
Definition state_file_exists : M bool := fun w =>
  (Ok (bool_decide (is_Some (state_file w))), w).

Definition json_load : M (gmap string WindowState) := fun w =>
  match state_file w with
  | Some (Json d) => (Ok d, w)
  | Some Malformed => (Raise JSONDecodeError, w)
  | None => (Raise JSONDecodeError, w)   (* not reached: guarded by exists() *)
  end.

(** ** The class *)

Section RateLimiter.

(** [self.MODELS]: a parameter, so that the properties can be stated for any
    configuration; the source's table is [MODELS] above. *)
Variable models : list (string * Limit).

Definition models_dict : gmap string Limit := list_to_map models.

(** [self.MODELS[model]] *)
Definition models_getitem (model : string) : M Limit := fun w =>
  match models_dict !! model with
  | Some l => (Ok l, w)
  | None => (Raise KeyError, w)
  end.

(** [save_state]: [json.dump(self.state, f)] over a truncated file. *)
Definition save_state : M unit := fun w =>
  (Ok tt, mkWorld (state w) (Some (Json (state w))) (log w) (clock w) (ticks w)).

(** [_initialize_state]: the dict comprehension visits the models in the
    order of the literal and calls [time.time()] twice for each. *)
Fixpoint initialize_loop (ms : list (string * Limit)) (acc : gmap string WindowState)
  : M (gmap string WindowState) :=
  match ms with
  | [] => mret acc
  | (model, _) :: rest =>
      t_minute ← time_time;
      t_day ← time_time;
      initialize_loop rest (<[model := mkWindowState t_minute t_day 0 0]> acc)
  end.

Definition _initialize_state : M (gmap string WindowState) :=
  initialize_loop models ∅.

Definition load_state : M unit :=
  there ← state_file_exists;
  if (there : bool) then
    d ← json_load;
    set_state d
  else
    d ← _initialize_state;
    set_state d;;
    save_state.

(** [__init__]; [setup_logging] only configures the logging sink. *)
Definition setup_logging : M unit := mret tt.

Definition __init__ : M unit :=
  setup_logging;;
  load_state.

Definition log_request (model : string) : M bool :=
  (* Advisory only; never block the call. *)
  if bool_decide (model ∉ dom models_dict) then
    logging (LogError model);;
    mret true
  else
    current_time ← time_time;
    _ ← model_state model;                 (* model_state = self.state[model] *)
    limits ← models_getitem model;
    s ← model_state model;
    (if Qle_bool 60 (current_time - minute_start s) then
       model_state_assign model (set_minute_start current_time);;
       model_state_assign model (set_minute_requests 0)
     else mret tt);;
    s ← model_state model;
    (if Qle_bool 86400 (current_time - day_start s) then
       model_state_assign model (set_day_start current_time);;
       model_state_assign model (set_daily_requests 0)
     else mret tt);;
    s ← model_state model;
    (if (minute_requests s >=? rpm limits) || (daily_requests s >=? daily limits) then
       logging (LogWarning model (rpm limits - minute_requests s)
                                 (daily limits - daily_requests s))
     else mret tt);;
    model_state_assign model (fun s => set_minute_requests (minute_requests s + 1) s);;
    model_state_assign model (fun s => set_daily_requests (daily_requests s + 1) s);;
    s ← model_state model;
    let remaining_minute := rpm limits - minute_requests s in
    let remaining_daily := daily limits - daily_requests s in
    logging (LogInfo model remaining_minute remaining_daily);;
    save_state;;
    mret true.  (* Always allow the call *)

(** The body of the loop of [get_limits], over [self.state.items()]. *)
Fixpoint get_limits_loop (current_time : Q) (items : list (string * WindowState))
    (status : gmap string Status) : M (gmap string Status) :=
  match items with
  | [] => mret status
  | (model, s) :: rest =>
      limits ← models_getitem model;
      let remaining_minute := rpm limits - minute_requests s in
      let remaining_daily := daily limits - daily_requests s in
      let remaining_minute :=
        if Qle_bool 60 (current_time - minute_start s) then rpm limits
        else remaining_minute in
      let remaining_daily :=
        if Qle_bool 86400 (current_time - day_start s) then daily limits
        else remaining_daily in
      get_limits_loop current_time rest
        (<[model := mkStatus remaining_minute remaining_daily]> status)
  end.

Definition get_limits : M (gmap string Status) :=
  current_time ← time_time;
  d ← get_state;
  get_limits_loop current_time (map_to_list d) ∅.

(** *** Callers

    The application constructs one tracker when it starts, then calls
    [get_limits] to display the allowance and [log_request] before each
    request, in any order. *)
Inductive call :=
  | Call_log_request (model : string)
  | Call_get_limits.

Definition run_call (c : call) : M unit :=
  match c with
  | Call_log_request model => _ ← log_request model; mret tt
  | Call_get_limits => _ ← get_limits; mret tt
  end.

Fixpoint run_calls (cs : list call) : M unit :=
  match cs with
  | [] => mret tt
  | c :: rest => run_call c;; run_calls rest
  end.

End RateLimiter.

(** The process before the tracker is constructed: the state file as the
    previous run (if any) left it, nothing logged, the clock not yet read.
    The [state] attribute does not exist yet; [load_state] assigns it or
    raises. *)
Definition boot (file : option FileContent) (clk : nat -> Q) : World :=
  mkWorld ∅ file [] clk 0.

(** ** The window arithmetic of [log_request], as functions

    [rollover] is what the two window tests of [log_request] (source lines
    86-92) do to a record at time [now]; [count_request] is its two
    increments (lines 101-102); [advisory] is the warning of lines 94-100.
    [log_request_known] below proves that the method is their composition. *)

Definition rollover_minute (now : Q) (s : WindowState) : WindowState :=
  if Qle_bool 60 (now - minute_start s)
  then set_minute_requests 0 (set_minute_start now s)
  else s.

Definition rollover_day (now : Q) (s : WindowState) : WindowState :=
  if Qle_bool 86400 (now - day_start s)
  then set_daily_requests 0 (set_day_start now s)
  else s.

Definition rollover (now : Q) (s : WindowState) : WindowState :=
  rollover_day now (rollover_minute now s).

Definition count_request (s : WindowState) : WindowState :=
  set_daily_requests (daily_requests s + 1)
    (set_minute_requests (minute_requests s + 1) s).

Definition advisory (model : string) (limits : Limit) (s : WindowState) : list LogRecord :=
  if (minute_requests s >=? rpm limits) || (daily_requests s >=? daily limits)
  then [LogWarning model (rpm limits - minute_requests s) (daily limits - daily_requests s)]
  else [].

(** The world after [log_request] of a configured model whose record is [s]. *)
Definition logged (model : string) (limits : Limit) (s : WindowState) (w : World) : World :=
  let now := clock w (ticks w) in
  let s' := count_request (rollover now s) in
  let d := <[model := s']> (state w) in
  mkWorld d (Some (Json d))
    (log w ++ advisory model limits (rollover now s)
           ++ [LogInfo model (rpm limits - minute_requests s') (daily limits - daily_requests s')])
    (clock w) (S (ticks w)).

(** The world after one more reading of the clock. *)
Definition tick (w : World) : World :=
  mkWorld (state w) (state_file w) (log w) (clock w) (S (ticks w)).

(** The entry [get_limits] computes for a record. *)
Definition status_of (limits : Limit) (now : Q) (s : WindowState) : Status :=
  mkStatus
    (if Qle_bool 60 (now - minute_start s) then rpm limits
     else rpm limits - minute_requests s)
    (if Qle_bool 86400 (now - day_start s) then daily limits
     else daily limits - daily_requests s).

(** The entry of [model] in what [get_limits] returned, if it returned. *)
Definition entry (r : result (gmap string Status)) (model : string) : option Status :=
  match r with
  | Ok status => status !! model
  | Raise _ => None
  end.

(** A clock that stands still, and a tracker constructed without a state
    file at time 1000 whose clock then reads [now]. *)
Definition fixed_clock (t : Q) : nat -> Q := fun _ => t.

Definition sample_world (now : Q) : World :=
  let w := snd (__init__ MODELS (boot None (fixed_clock 1000))) in
  mkWorld (state w) (state_file w) (log w) (fixed_clock now) (ticks w).

(** The clock of the scenario of the specification: the tracker is
    constructed (ten readings) and used twice (a request, then a status) at
    [T0], used twice again thirty seconds later, and asked for its status
    sixty-five seconds after [T0]. *)
Definition scenario_clock (T0 : Q) : nat -> Q := fun n =>
  if (n <? 12)%nat then T0
  else if (n <? 14)%nat then (T0 + 30)%Q
  else (T0 + 65)%Q.

Definition counts_nonneg (s : WindowState) : Prop :=
  0 <= minute_requests s /\ 0 <= daily_requests s.

(** A state file left by a version of the program that knew another model. *)
Definition stale_store : gmap string WindowState :=
  {[ "gemini-pro" := mkWindowState 1000 1000 3 3 ]}.

(** ** The window that uses the tracker

    [GeminiTesterApp] constructs the tracker, shows its status and reports
    each request to it.  The window is modelled by what these methods read
    and write: the widgets' contents, the lines appended to the log pane,
    the message boxes shown, and the worker thread it starts (by the
    arguments the thread is constructed with; what the thread does later is
    outside the model). *)

(** The [generation_config] dict of [run_gemini]. *)
Record GenerationConfig := mkGenerationConfig {
  temperature : Q;
  top_p : Q;
  top_k : Z;
  max_output_tokens : Z;
  response_mime_type : string
}.

(** The arguments of [GeminiOneShotWorker(...)]. *)
Record Worker := mkWorker {
  worker_text : string;
  worker_model_name : string;
  worker_generation_config : GenerationConfig;
  worker_machine_name : string;
  worker_additional_qa : string
}.

(** The messages these methods pass to [self.log]. *)
Inductive GuiLine :=
  | Line_current_limits (model : string)
      (* f"Current limits for {current_model}:" *)
  | Line_remaining_minute (n : Z)
      (* f"Remaining requests per minute: {status['remaining_minute']}" *)
  | Line_remaining_day (n : Z)
      (* f"Remaining requests per day: {status['remaining_daily']}" *)
  | Line_no_information (model : string)
      (* f"No rate limit information available for {current_model}" *)
  | Line_machine_name_empty
      (* "Error: Machine name is empty." *)
  | Line_input_text_empty.
      (* "Error: Input text is empty." *)

(** The [QMessageBox.warning] boxes of [run_gemini]. *)
Inductive Dialog :=
  | Warning_enter_machine_name   (* "Please enter a machine name." *)
  | Warning_enter_manual_text.   (* "Please enter or load some manual text to process." *)

Record Window := mkWindow {
  model_combo : string;        (* model_combo.currentText() *)
  machine_edit : string;       (* machine_edit.text() *)
  qa_edit : string;            (* qa_edit.toPlainText() *)
  input_edit : string;         (* input_edit.toPlainText() *)
  output_edit : string;        (* output_edit.toPlainText() *)
  run_btn : bool;              (* run_btn.isEnabled() *)
  save_btn : bool;             (* save_btn.isEnabled() *)
  log_edit : list GuiLine;     (* the lines of log_edit, oldest first *)
  dialogs : list Dialog;       (* message boxes shown so far *)
  worker : option Worker       (* self.worker *)
}.

(** [self.log(message)], for several messages in turn. *)
Definition gui_log (lines : list GuiLine) (g : Window) : Window :=
  mkWindow (model_combo g) (machine_edit g) (qa_edit g) (input_edit g)
    (output_edit g) (run_btn g) (save_btn g) (log_edit g ++ lines)
    (dialogs g) (worker g).

Definition show_dialog (d : Dialog) (g : Window) : Window :=
  mkWindow (model_combo g) (machine_edit g) (qa_edit g) (input_edit g)
    (output_edit g) (run_btn g) (save_btn g) (log_edit g)
    (dialogs g ++ [d]) (worker g).

Section GeminiTesterApp.

Variable models : list (string * Limit).

(** [str.strip()]: a library function, of which nothing is assumed. *)
Variable strip : string -> string.

Definition update_limits_display (g : Window) (w : World)
  : result unit * (Window * World) :=
  match get_limits models w with
  | (Raise e, w') => (Raise e, (g, w'))
  | (Ok limits, w') =>
      let current_model := model_combo g in
      match limits !! current_model with
      | Some status =>
          (Ok tt,
           (gui_log [Line_current_limits current_model;
                     Line_remaining_minute (remaining_minute status);
                     Line_remaining_day (remaining_daily status)] g, w'))
      | None =>
          (Ok tt, (gui_log [Line_no_information current_model] g, w'))
      end
  end.

(** [init_rate_limiter]: [self.rate_limiter = RateLimiter()], then the
    status of the selected model is shown. *)
Definition init_rate_limiter (g : Window) (w : World)
  : result unit * (Window * World) :=
  match __init__ models w with
  | (Raise e, w') => (Raise e, (g, w'))
  | (Ok _, w') => update_limits_display g w'
  end.

Definition run_gemini (g : Window) (w : World)
  : result unit * (Window * World) :=
  let model_name := model_combo g in
  let input_text := strip (input_edit g) in
  let machine_name := strip (machine_edit g) in
  let additional_qa := strip (qa_edit g) in
  if bool_decide (machine_name = "") then
    (Ok tt, (show_dialog Warning_enter_machine_name
               (gui_log [Line_machine_name_empty] g), w))
  else if bool_decide (input_text = "") then
    (Ok tt, (show_dialog Warning_enter_manual_text
               (gui_log [Line_input_text_empty] g), w))
  else
    (* Log the request advisory (does not block the call) *)
    match log_request models model_name w with
    | (Raise e, w') => (Raise e, (g, w'))
    | (Ok _, w') =>
        let generation_config :=
          if bool_decide (model_name = "gemini-1.5-flash-8b")
          then mkGenerationConfig 0.7 0.95 40 8192 "text/plain"
          else mkGenerationConfig 0.7 0.95 64 65536 "text/plain" in
        (Ok tt,
         (mkWindow (model_combo g) (machine_edit g) (qa_edit g) (input_edit g)
            "" false false (log_edit g) (dialogs g)
            (Some (mkWorker input_text model_name generation_config
                            machine_name additional_qa)), w'))
    end.

End GeminiTesterApp.

(** [str.strip()] on text of ASCII characters (white space is then the
    codes 9 to 13 and 28 to 32); it stands for [strip] in the examples. *)
Definition ascii_isspace (a : Ascii.ascii) : bool :=
  let n := Ascii.nat_of_ascii a in
  ((9 <=? n)%nat && (n <=? 13)%nat) || ((28 <=? n)%nat && (n <=? 32)%nat).

Fixpoint lstrip (s : string) : string :=
  match s with
  | String a rest => if ascii_isspace a then lstrip rest else s
  | EmptyString => EmptyString
  end.

Definition ascii_strip (s : string) : string :=
  String.rev (lstrip (String.rev (lstrip s))).

(** A window as [GeminiTesterApp.__init__] leaves it, with a machine name
    and a manual typed in. *)
Definition sample_window (model machine manual : string) : Window :=
  mkWindow model machine "" manual "" true false [] [] None.

(** ** Running the methods *)

Ltac run :=
  unfold mbind, M_bind, mret, M_ret, time_time, logging, get_state, set_state,
    model_state, model_state_assign, models_getitem, save_state,
    state_file_exists, json_load, setup_logging; cbn.

Section Runs.

Variable models : list (string * Limit).

Lemma log_request_unknown model w :
  models_dict models !! model = None ->
  log_request models model w =
    (Ok true, mkWorld (state w) (state_file w) (log w ++ [LogError model]) (clock w) (ticks w)).
Proof.
  intros Hnone. unfold log_request.
  rewrite bool_decide_eq_true_2 by (by apply not_elem_of_dom).
  reflexivity.
Qed.

Lemma log_request_known model limits s w :
  models_dict models !! model = Some limits ->
  state w !! model = Some s ->
  log_request models model w = (Ok true, logged model limits s w).
Proof.
  intros Hlim Hs. unfold log_request.
  rewrite bool_decide_eq_false_2
    by (intros Hn; apply not_elem_of_dom in Hn; congruence).
  run. rewrite Hs, Hlim. cbn. rewrite Hs. cbn.
  unfold logged, rollover, rollover_minute, rollover_day, advisory, count_request.
  destruct (Qle_bool 60 _); cbn;
    rewrite ?lookup_alter_eq, ?Hs; cbn;
    (destruct (Qle_bool 86400 _); cbn;
     rewrite ?lookup_alter_eq, ?Hs; cbn;
     (destruct (_ || _); cbn;
      rewrite ?lookup_alter_eq, ?Hs; cbn;
      rewrite ?(alter_alt_Some _ _ _ _ Hs), ?alter_insert_eq; cbn)).
  all: by rewrite <- ?app_assoc.
Qed.

(** [get_limits_loop] only looks the models up: it leaves the world as it
    is, and its result does not depend on it. *)
Lemma get_limits_loop_pure now items acc :
  exists r, forall w, get_limits_loop models now items acc w = (r, w).
Proof.
  revert acc. induction items as [|[model s] rest IH]; intros acc.
  - by exists (Ok acc).
  - cbn. run. destruct (models_dict models !! model) as [limits|].
    + destruct (IH (<[model := status_of limits now s]> acc)) as [r Hr].
      exists r. intros w. apply Hr.
    + by exists (Raise KeyError).
Qed.

Lemma get_limits_loop_ok now items acc w :
  NoDup items.*1 ->
  Forall (fun p => is_Some (models_dict models !! p.1)) items ->
  exists status,
    get_limits_loop models now items acc w = (Ok status, w) /\
    forall k, status !! k =
      match (list_to_map items : gmap string WindowState) !! k with
      | Some s => (fun limits => status_of limits now s) <$> models_dict models !! k
      | None => acc !! k
      end.
Proof.
  revert acc. induction items as [|[model s] rest IH]; intros acc Hnd Hall.
  - exists acc. split; [done|]. intros k. cbn. by rewrite lookup_empty.
  - apply list.NoDup_cons in Hnd as [Hfresh Hnd].
    apply list.Forall_cons in Hall as [[limits Hlim] Hall]. cbn in Hlim.
    destruct (IH (<[model := status_of limits now s]> acc) Hnd Hall)
      as (status & Hrun & Hlook).
    exists status. split.
    + cbn. run. rewrite Hlim. exact Hrun.
    + intros k. rewrite Hlook. cbn.
      destruct (decide (model = k)) as [->|Hne].
      * rewrite lookup_insert_eq, (not_elem_of_list_to_map_1 _ _ Hfresh).
        by rewrite lookup_insert_eq, Hlim.
      * by rewrite !lookup_insert_ne.
Qed.

Lemma get_limits_loop_raise now items acc w :
  Exists (fun p => models_dict models !! p.1 = None) items ->
  get_limits_loop models now items acc w = (Raise KeyError, w).
Proof.
  revert acc. induction items as [|[model s] rest IH]; intros acc Hex.
  - by apply Exists_nil in Hex.
  - cbn. run. destruct (models_dict models !! model) as [limits|] eqn:Hlim; [|done].
    apply Exists_cons in Hex as [Hhere|Hlater]; [cbn in Hhere; congruence|].
    by apply IH.
Qed.

Lemma get_limits_world w : snd (get_limits models w) = tick w.
Proof.
  unfold get_limits. run.
  destruct (get_limits_loop_pure (clock w (ticks w)) (map_to_list (state w)) ∅) as [r Hr].
  rewrite Hr. by destruct r.
Qed.

(** The result of [get_limits] is a function of the time read and of the
    tracker state alone. *)
Lemma get_limits_ext w1 w2 :
  state w1 = state w2 ->
  clock w1 (ticks w1) = clock w2 (ticks w2) ->
  fst (get_limits models w1) = fst (get_limits models w2).
Proof.
  intros Hst Hnow. unfold get_limits. run. rewrite Hst, Hnow.
  destruct (get_limits_loop_pure (clock w2 (ticks w2)) (map_to_list (state w2)) ∅) as [r Hr].
  rewrite !Hr. by destruct r.
Qed.

Lemma get_limits_ok w :
  dom (state w) ⊆ dom (models_dict models) ->
  exists status,
    get_limits models w = (Ok status, tick w) /\
    forall k, status !! k =
      match state w !! k with
      | Some s => (fun limits => status_of limits (clock w (ticks w)) s) <$> models_dict models !! k
      | None => None
      end.
Proof.
  intros Hsub.
  destruct (get_limits_loop_ok (clock w (ticks w)) (map_to_list (state w)) ∅ (tick w))
    as (status & Hrun & Hlook).
  - apply NoDup_fst_map_to_list.
  - apply list.Forall_forall. intros [k s] Hin. cbn.
    apply elem_of_map_to_list in Hin.
    apply elem_of_dom, Hsub, elem_of_dom. eauto.
  - exists status. split.
    + unfold get_limits. run. exact Hrun.
    + intros k. rewrite Hlook, list_to_map_to_list.
      destruct (state w !! k); [done|apply lookup_empty].
Qed.

Lemma get_limits_raise w :
  ~ dom (state w) ⊆ dom (models_dict models) ->
  get_limits models w = (Raise KeyError, tick w).
Proof.
  intros Hsub. unfold get_limits. run.
  apply (get_limits_loop_raise _ _ _ (tick w)).
  apply list.Exists_exists.
  destruct (decide (Forall (fun p : string * WindowState =>
              is_Some (models_dict models !! p.1)) (map_to_list (state w))))
    as [Hall|Hnall].
  - exfalso. apply Hsub. intros k Hk. apply elem_of_dom in Hk as [s Hs].
    apply elem_of_dom.
    rewrite list.Forall_forall in Hall.
    apply (Hall (k, s)). by apply elem_of_map_to_list.
  - apply not_Forall_Exists in Hnall; [|solve_decision].
    apply list.Exists_exists in Hnall as (p & Hin & Hp).
    exists p. split; [done|]. cbn in Hp.
    destruct (models_dict models !! p.1); [|done].
    exfalso. apply Hp. eauto.
Qed.

(** *** Construction *)

Lemma initialize_loop_run ms acc w :
  exists d,
    initialize_loop ms acc w =
      (Ok d, mkWorld (state w) (state_file w) (log w) (clock w)
                     (ticks w + 2 * length ms)%nat) /\
    dom d = list_to_set ms.*1 ∪ dom acc /\
    forall k s, d !! k = Some s ->
      acc !! k = Some s \/
      (minute_requests s = 0 /\ daily_requests s = 0 /\
       exists n, (n < length ms)%nat /\
         minute_start s = clock w (ticks w + 2 * n)%nat /\
         day_start s = clock w (ticks w + 2 * n + 1)%nat).
Proof.
  revert acc w. induction ms as [|[model limits] rest IH]; intros acc w.
  - exists acc. split; [|split].
    + destruct w. cbn. run. do 2 f_equal. lia.
    + cbn. set_solver.
    + auto.
  - set (s0 := mkWindowState (clock w (ticks w)) (clock w (S (ticks w))) 0 0).
    destruct (IH (<[model := s0]> acc) (tick (tick w))) as (d & Hrun & Hdom & Hlook).
    exists d. split; [|split].
    + cbn. run. unfold tick, s0 in Hrun. cbn in Hrun. rewrite Hrun.
      do 2 f_equal. lia.
    + rewrite Hdom, dom_insert_L. cbn. set_solver.
    + intros k s Hk. destruct (Hlook k s Hk) as [Hacc|(Hm & Hd & n & Hn & Hms & Hds)].
      * destruct (decide (model = k)) as [->|Hne].
        -- rewrite lookup_insert_eq in Hacc. injection Hacc as <-.
           right. repeat split. exists 0%nat. cbn. split; [lia|].
           split; f_equal; lia.
        -- rewrite lookup_insert_ne in Hacc by done. by left.
      * right. repeat split; [done..|]. exists (S n). cbn in *.
        split; [lia|]. rewrite Hms, Hds. split; f_equal; lia.
Qed.

Lemma init_fresh clk :
  exists d,
    __init__ models (boot None clk) =
      (Ok tt, mkWorld d (Some (Json d)) [] clk (2 * length models)%nat) /\
    dom d = dom (models_dict models) /\
    forall k s, d !! k = Some s ->
      minute_requests s = 0 /\ daily_requests s = 0 /\
      exists n, (n < length models)%nat /\
        minute_start s = clk (2 * n)%nat /\ day_start s = clk (2 * n + 1)%nat.
Proof.
  destruct (initialize_loop_run models ∅ (boot None clk)) as (d & Hrun & Hdom & Hlook).
  exists d. split; [|split].
  - unfold __init__, load_state, _initialize_state. run. by rewrite Hrun.
  - unfold models_dict. rewrite Hdom, dom_list_to_map_L, dom_empty_L. set_solver.
  - intros k s Hk. destruct (Hlook k s Hk) as [Hacc|Hfresh]; [by rewrite lookup_empty in Hacc|].
    exact Hfresh.
Qed.

Lemma init_loaded d clk :
  __init__ models (boot (Some (Json d)) clk) =
    (Ok tt, mkWorld d (Some (Json d)) [] clk 0).
Proof. reflexivity. Qed.

Lemma init_malformed clk :
  __init__ models (boot (Some Malformed) clk) =
    (Raise JSONDecodeError, boot (Some Malformed) clk).
Proof. reflexivity. Qed.

(** *** What every call preserves *)

Lemma rollover_counts now s :
  (minute_requests (rollover now s) = 0 \/
   minute_requests (rollover now s) = minute_requests s) /\
  (daily_requests (rollover now s) = 0 \/
   daily_requests (rollover now s) = daily_requests s).
Proof.
  unfold rollover, rollover_day, rollover_minute.
  destruct (Qle_bool 60 _); cbn; destruct (Qle_bool 86400 _); cbn; auto.
Qed.

Lemma count_request_nonneg now s :
  counts_nonneg s -> counts_nonneg (count_request (rollover now s)).
Proof.
  intros [Hm Hd]. destruct (rollover_counts now s) as [Hrm Hrd].
  unfold counts_nonneg, count_request. cbn. lia.
Qed.

Lemma run_call_inv c w :
  dom (state w) = dom (models_dict models) ->
  map_Forall (fun _ s => counts_nonneg s) (state w) ->
  exists w',
    run_call models c w = (Ok tt, w') /\
    dom (state w') = dom (models_dict models) /\
    map_Forall (fun _ s => counts_nonneg s) (state w').
Proof.
  intros Hdom Hnn. destruct c as [model|]; cbn.
  - destruct (models_dict models !! model) as [limits|] eqn:Hlim.
    + assert (is_Some (state w !! model)) as [s Hs].
      { apply elem_of_dom. rewrite Hdom. apply elem_of_dom. eauto. }
      exists (logged model limits s w). split; [|split].
      * unfold mbind, M_bind. by rewrite (log_request_known _ _ _ _ Hlim Hs).
      * cbn. rewrite dom_insert_L, Hdom.
        assert (model ∈ dom (models_dict models)) by (apply elem_of_dom; eauto).
        set_solver.
      * cbn. apply map_Forall_insert_2; [|done].
        apply count_request_nonneg. exact (Hnn _ _ Hs).
    + eexists. split; [|split].
      * unfold mbind, M_bind. by rewrite (log_request_unknown _ _ Hlim).
      * done.
      * done.
  - destruct (get_limits_ok w) as (status & Hrun & _); [by rewrite Hdom|].
    exists (tick w). split; [|done].
    unfold mbind, M_bind. by rewrite Hrun.
Qed.

Lemma run_calls_inv cs w :
  dom (state w) = dom (models_dict models) ->
  map_Forall (fun _ s => counts_nonneg s) (state w) ->
  exists w',
    run_calls models cs w = (Ok tt, w') /\
    dom (state w') = dom (models_dict models) /\
    map_Forall (fun _ s => counts_nonneg s) (state w').
Proof.
  revert w. induction cs as [|c rest IH]; intros w Hdom Hnn.
  - by exists w.
  - destruct (run_call_inv c w Hdom Hnn) as (w1 & Hrun1 & Hdom1 & Hnn1).
    destruct (IH w1 Hdom1 Hnn1) as (w2 & Hrun2 & Hdom2 & Hnn2).
    exists w2. split; [|done].
    cbn. unfold mbind, M_bind. by rewrite Hrun1.
Qed.

End Runs.

(** ** The claims *)

Lemma status_of_rollover limits now s :
  status_of limits now s =
    mkStatus (rpm limits - minute_requests (rollover now s))
             (daily limits - daily_requests (rollover now s)).
Proof.
  unfold status_of, rollover, rollover_day, rollover_minute.
  destruct (Qle_bool 60 _); cbn; destruct (Qle_bool 86400 _); cbn;
    by rewrite ?Z.sub_0_r.
Qed.

Lemma get_limits_dom models w status :
  dom (state w) ⊆ dom (models_dict models) ->
  fst (get_limits models w) = Ok status ->
  dom status = dom (state w).
Proof.
  intros Hsub Hrun.
  destruct (get_limits_ok models w Hsub) as (status' & Hrun' & Hlook).
  rewrite Hrun' in Hrun. cbn in Hrun. injection Hrun as ->.
  apply set_eq. intros k. rewrite !elem_of_dom, Hlook.
  destruct (state w !! k) as [s|] eqn:Hs.
  - assert (is_Some (models_dict models !! k)) as [limits ->].
    { apply elem_of_dom, Hsub, elem_of_dom. eauto. }
    cbn. split; eauto.
  - split; intros [? ?]; done.
Qed.

(** What [log_request] does for a configured model whose record the
    tracker holds: it reads the clock exactly once; the minute window restarts
    at that time with a count of 0 when the time read minus [minute_start]
    is at least 60, the day window likewise at 86400; both counts then grow
    by exactly 1; and the whole tracker state is written to the state file. *)
Theorem log_request_held_record_counts_and_saves models model limits s w :
  models_dict models !! model = Some limits ->
  state w !! model = Some s ->
  let now := clock w (ticks w) in
  let minute_over := Qle_bool 60 (now - minute_start s) in
  let day_over := Qle_bool 86400 (now - day_start s) in
  let s' :=
    mkWindowState
      (if minute_over then now else minute_start s)
      (if day_over then now else day_start s)
      ((if minute_over then 0 else minute_requests s) + 1)
      ((if day_over then 0 else daily_requests s) + 1) in
  exists w',
    log_request models model w = (Ok true, w') /\
    ticks w' = S (ticks w) /\
    clock w' = clock w /\
    state w' = <[model := s']> (state w) /\
    state_file w' = Some (Json (state w')).
Proof.
  intros Hlim Hs now minute_over day_over s'.
  exists (logged model limits s w). split.
  - by apply log_request_known.
  - cbn. repeat split. f_equal.
    unfold s', count_request, rollover, rollover_day, rollover_minute.
    fold now. fold minute_over.
    destruct minute_over; cbn; fold day_over; destruct day_over; reflexivity.
Qed.

Lemma log_request_held_record_example :
  exists w',
    log_request MODELS "gemini-1.5-pro" (sample_world 1075) = (Ok true, w') /\
    ticks w' = 11%nat /\
    clock w' = fixed_clock 1075 /\
    state w' = <["gemini-1.5-pro" := mkWindowState 1075 1000 1 1]>
                 (state (sample_world 1075)) /\
    state_file w' = Some (Json (state w')).
Proof.
  exact (log_request_held_record_counts_and_saves MODELS "gemini-1.5-pro" (mkLimit 2 50)
           (mkWindowState 1000 1000 0 0) (sample_world 1075) eq_refl eq_refl).
Defined.

(** C1 fails on the code.  The tracker is constructed over a state file
    left by a version of the program that knew another model, so it holds
    no record for "gemini-1.5-flash", a model of the configuration:
    [log_request] reads the clock and raises at [self.state[model]]; no
    count is incremented and nothing is written to the state file. *)
Lemma C1_configured_model_without_record_raises :
  let w := snd (__init__ MODELS (boot (Some (Json stale_store)) (fixed_clock 1000))) in
  let r := log_request MODELS "gemini-1.5-flash" w in
  models_dict MODELS !! "gemini-1.5-flash" = Some (mkLimit 15 1500) /\
  fst (__init__ MODELS (boot (Some (Json stale_store)) (fixed_clock 1000))) = Ok tt /\
  fst r = Raise KeyError /\
  ticks (snd r) = S (ticks w) /\
  state (snd r) = state w /\
  state_file (snd r) = state_file w.
Proof. repeat split; vm_compute; reflexivity. Qed.

(** C2: for a model that is not in the configuration, [log_request] logs
    the unknown model, returns [True] without raising, and leaves the
    tracker state, the state file and the clock untouched; [get_limits]
    therefore returns afterwards exactly what it returns before. *)
Theorem C2_log_request_unknown_model models model w :
  model ∉ dom (models_dict models) ->
  let r := log_request models model w in
  fst r = Ok true /\
  log (snd r) = log w ++ [LogError model] /\
  state (snd r) = state w /\
  state_file (snd r) = state_file w /\
  clock (snd r) = clock w /\
  ticks (snd r) = ticks w /\
  get_limits models (snd r) =
    (fst (get_limits models w), tick (snd r)) /\
  fst (get_limits models (snd r)) = fst (get_limits models w).
Proof.
  intros Hnot r. apply not_elem_of_dom in Hnot.
  unfold r. rewrite (log_request_unknown models model w Hnot). cbn.
  assert (fst (get_limits models
            (mkWorld (state w) (state_file w) (log w ++ [LogError model])
                     (clock w) (ticks w))) = fst (get_limits models w)) as Heq
    by (by apply get_limits_ext).
  repeat split; try done.
  rewrite <- Heq, <- (get_limits_world models). by destruct (get_limits _ _).
Qed.

Lemma C2_witness :
  ("gpt-4" ∉ dom (models_dict MODELS)) /\
  fst (log_request MODELS "gpt-4" (sample_world 1075)) = Ok true /\
  state (snd (log_request MODELS "gpt-4" (sample_world 1075))) =
    state (sample_world 1075) /\
  fst (get_limits MODELS (snd (log_request MODELS "gpt-4" (sample_world 1075)))) =
    fst (get_limits MODELS (sample_world 1075)).
Proof.
  assert ("gpt-4" ∉ dom (models_dict MODELS)) as Hnot
    by (apply not_elem_of_dom; reflexivity).
  split; [exact Hnot|].
  destruct (C2_log_request_unknown_model MODELS "gpt-4" (sample_world 1075) Hnot)
    as (Hret & _ & Hst & _ & _ & _ & _ & Hget).
  exact (conj Hret (conj Hst Hget)).
Defined.

(** Whatever the model, and whatever the records of a tracker state that
    holds one for the model when it is configured, [log_request] returns
    [True].  For a configured model, when the
    allowance left in either window before the increment is at most 0, that
    is when the count has reached the cap, a warning carrying the two
    pre-increment allowances is logged; in every case both counts are
    incremented and the state is saved. *)
Theorem log_request_true_when_record_held models model w :
  (is_Some (models_dict models !! model) -> is_Some (state w !! model)) ->
  let r := log_request models model w in
  fst r = Ok true /\
  forall limits s,
    models_dict models !! model = Some limits ->
    state w !! model = Some s ->
    let p := rollover (clock w (ticks w)) s in
    let minute_left := rpm limits - minute_requests p in
    let daily_left := daily limits - daily_requests p in
    (minute_left <= 0 \/ daily_left <= 0 <->
       minute_requests p >= rpm limits \/ daily_requests p >= daily limits) /\
    log (snd r) =
      log w
      ++ (if bool_decide (minute_left <= 0 \/ daily_left <= 0)
          then [LogWarning model minute_left daily_left] else [])
      ++ [LogInfo model (minute_left - 1) (daily_left - 1)] /\
    (exists s', state (snd r) !! model = Some s' /\
       minute_requests s' = minute_requests p + 1 /\
       daily_requests s' = daily_requests p + 1) /\
    state_file (snd r) = Some (Json (state (snd r))).
Proof.
  intros Hcover r.
  destruct (models_dict models !! model) as [limits|] eqn:Hlim.
  - destruct Hcover as [s Hs]; [by eauto|].
    unfold r. rewrite (log_request_known models model limits s w Hlim Hs).
    split; [done|]. intros limits' s' [= <-] Hs'.
    rewrite Hs in Hs'. injection Hs' as <-.
    set (p := rollover (clock w (ticks w)) s).
    set (minute_left := rpm limits - minute_requests p).
    set (daily_left := daily limits - daily_requests p).
    split; [lia|]. cbn. fold p. split; [|split].
    + f_equal. f_equal.
      * unfold advisory. fold minute_left daily_left.
        destruct (bool_decide_reflect (minute_left <= 0 \/ daily_left <= 0)) as [Hle|Hgt].
        -- replace ((minute_requests p >=? rpm limits) || (daily_requests p >=? daily limits))
             with true; [done|].
           symmetry. apply orb_true_iff. rewrite !Z.geb_leb, !Z.leb_le. lia.
        -- replace ((minute_requests p >=? rpm limits) || (daily_requests p >=? daily limits))
             with false; [done|].
           symmetry. apply orb_false_iff. rewrite !Z.geb_leb, !Z.leb_gt. lia.
      * do 2 f_equal; lia.
    + exists (count_request p). by rewrite lookup_insert_eq.
    + done.
  - unfold r. rewrite (log_request_unknown models model w Hlim).
    split; [done|]. intros limits s [=].
Qed.

(** C3 fails on the code, against the code's own comments ("never block
    the call", "Always allow the call"): over a state file left by a
    version of the program that did not know the model, the tracker holds
    no record for it and [log_request] raises at [self.state[model]]
    instead of returning [True]. *)
Lemma C3_record_missing_raises :
  let w := snd (__init__ MODELS (boot (Some (Json stale_store)) (fixed_clock 1000))) in
  models_dict MODELS !! "gemini-1.5-pro" = Some (mkLimit 2 50) /\
  state w !! "gemini-1.5-pro" = None /\
  fst (log_request MODELS "gemini-1.5-pro" w) = Raise KeyError.
Proof. repeat split; vm_compute; reflexivity. Qed.

Lemma log_request_true_example :
  fst (log_request MODELS "gemini-1.5-pro" (sample_world 1075)) = Ok true.
Proof.
  refine (proj1 (log_request_true_when_record_held MODELS "gemini-1.5-pro"
                   (sample_world 1075) _)).
  intros _. exists (mkWindowState 1000 1000 0 0). reflexivity.
Defined.

(** C4: [get_limits] changes neither a record of the tracker state nor the
    state file; whenever it returns a status, the status has one entry per
    record, and the entry of each configured model is, whatever the time
    read, the limit minus the count that the two window tests of
    [log_request] leave at that same time ([rollover], which [log_request]
    commits before it counts the request); and it does return a status
    when the tracker state holds records of configured models only. *)
Theorem C4_get_limits_same_rollover models w :
  let now := clock w (ticks w) in
  let r := get_limits models w in
  (state (snd r) = state w /\ state_file (snd r) = state_file w) /\
  (forall status,
     fst r = Ok status ->
     dom status = dom (state w) /\
     forall model s limits,
       state w !! model = Some s ->
       models_dict models !! model = Some limits ->
       status !! model =
         Some (mkStatus (rpm limits - minute_requests (rollover now s))
                        (daily limits - daily_requests (rollover now s))) /\
       state (snd (log_request models model w)) !! model =
         Some (count_request (rollover now s))) /\
  (dom (state w) ⊆ dom (models_dict models) ->
   exists status, fst r = Ok status).
Proof.
  intros now r. split; [|split].
  - unfold r. by rewrite get_limits_world.
  - intros status Hret.
    destruct (decide (dom (state w) ⊆ dom (models_dict models))) as [Hsub|Hnsub].
    + destruct (get_limits_ok models w Hsub) as (status' & Hrun & Hlook).
      assert (status' = status) as ->.
      { unfold r in Hret. rewrite Hrun in Hret. by injection Hret. }
      split.
      * apply (get_limits_dom models); [done|]. by rewrite Hrun.
      * intros model s limits Hs Hlim. split.
        -- rewrite Hlook, Hs, Hlim. cbn. f_equal. apply status_of_rollover.
        -- rewrite (log_request_known models model limits s w Hlim Hs). cbn.
           by rewrite lookup_insert_eq.
    + unfold r in Hret. by rewrite (get_limits_raise models w Hnsub) in Hret.
  - intros Hsub.
    destruct (get_limits_ok models w Hsub) as (status & Hrun & _).
    exists status. unfold r. by rewrite Hrun.
Qed.

Lemma C4_witness :
  exists status,
    fst (get_limits MODELS (sample_world 1075)) = Ok status /\
    status !! "gemini-1.5-pro" = Some (mkStatus 2 50).
Proof.
  assert (dom (state (sample_world 1075)) ⊆ dom (models_dict MODELS)) as Hsub
    by (refine (bool_decide_unpack _ _); vm_compute; exact I).
  destruct (C4_get_limits_same_rollover MODELS (sample_world 1075))
    as (_ & Hvalues & Hreturns).
  destruct (Hreturns Hsub) as (status & Hrun).
  exists status. split; [exact Hrun|].
  destruct (Hvalues status Hrun) as (_ & Hentry).
  exact (proj1 (Hentry "gemini-1.5-pro" (mkWindowState 1000 1000 0 0)
                  (mkLimit 2 50) eq_refl eq_refl)).
Defined.

(** *** The scenario of the specification *)

Lemma Qle_bool_elapsed (bound t d : Q) :
  Qle_bool bound (t + d - t) = Qle_bool bound d.
Proof.
  destruct (Qle_bool bound d) eqn:Hd.
  - apply Qle_bool_iff. apply Qle_bool_iff in Hd. lra.
  - destruct (Qle_bool bound (t + d - t)) eqn:Hd'; [|done].
    apply Qle_bool_iff in Hd'.
    assert (bound <= d)%Q as Hle by lra.
    apply Qle_bool_iff in Hle. congruence.
Qed.

Lemma Qle_bool_same (bound t : Q) :
  Qle_bool bound (t - t) = Qle_bool bound 0.
Proof.
  destruct (Qle_bool bound 0) eqn:Hd.
  - apply Qle_bool_iff. apply Qle_bool_iff in Hd. lra.
  - destruct (Qle_bool bound (t - t)) eqn:Hd'; [|done].
    apply Qle_bool_iff in Hd'.
    assert (bound <= 0)%Q as Hle by lra.
    apply Qle_bool_iff in Hle. congruence.
Qed.

Lemma get_limits_entry models w model s limits :
  dom (state w) ⊆ dom (models_dict models) ->
  state w !! model = Some s ->
  models_dict models !! model = Some limits ->
  entry (fst (get_limits models w)) model =
    Some (status_of limits (clock w (ticks w)) s).
Proof.
  intros Hsub Hs Hlim.
  destruct (get_limits_ok models w Hsub) as (status & Hrun & Hlook).
  rewrite Hrun. cbn. by rewrite Hlook, Hs, Hlim.
Qed.

Lemma scenario_clock_start T0 n : (n < 12)%nat -> scenario_clock T0 n = T0.
Proof.
  intros Hn. unfold scenario_clock.
  by rewrite (proj2 (Nat.ltb_lt n 12) Hn).
Qed.

(** C5: the scenario of the specification for "gemini-1.5-pro" (2 per
    minute, 50 per day).  The tracker is constructed without a state file
    at [T0]; a request at [T0] leaves 1 and 49; a second request thirty
    seconds later leaves 0 and 48; sixty-five seconds after [T0], with no
    further request, the status shows 2 and 48. *)
Theorem C5_scenario_gemini_pro (T0 : Q) :
  let pro := "gemini-1.5-pro" in
  let w0 := snd (__init__ MODELS (boot None (scenario_clock T0))) in
  let w1 := snd (log_request MODELS pro w0) in
  let r1 := get_limits MODELS w1 in
  let w2 := snd (log_request MODELS pro (snd r1)) in
  let r2 := get_limits MODELS w2 in
  let r3 := get_limits MODELS (snd r2) in
  models_dict MODELS !! pro = Some (mkLimit 2 50) /\
  clock w0 (ticks w0) = T0 /\
  clock w1 (ticks w1) = T0 /\
  entry (fst r1) pro = Some (mkStatus 1 49) /\
  clock (snd r1) (ticks (snd r1)) = (T0 + 30)%Q /\
  clock w2 (ticks w2) = (T0 + 30)%Q /\
  entry (fst r2) pro = Some (mkStatus 0 48) /\
  clock (snd r2) (ticks (snd r2)) = (T0 + 65)%Q /\
  entry (fst r3) pro = Some (mkStatus 2 48).
Proof.
  intros pro w0 w1 r1 w2 r2 r3.
  set (lim := mkLimit 2 50).
  set (clk := scenario_clock T0) in *.
  assert (models_dict MODELS !! pro = Some lim) as Hlim by reflexivity.
  assert (pro ∈ dom (models_dict MODELS)) as Hpro by (apply elem_of_dom; eauto).
  assert (forall n, (n < 12)%nat -> clk n = T0) as Hearly
    by (intros n Hn; by apply scenario_clock_start).
  assert (clk 12%nat = (T0 + 30)%Q /\ clk 13%nat = (T0 + 30)%Q /\
          clk 14%nat = (T0 + 65)%Q) as (Hc12 & Hc13 & Hc14) by done.
  (* construction *)
  destruct (init_fresh MODELS clk) as (d & Hinit & Hdom & Hfresh).
  assert (w0 = mkWorld d (Some (Json d)) [] clk 10) as Hw0
    by (unfold w0; rewrite Hinit; reflexivity).
  clearbody w0 clk. subst w0. clear Hinit.
  assert (d !! pro = Some (mkWindowState T0 T0 0 0)) as Hs0.
  { assert (is_Some (d !! pro)) as [s Hs] by (apply elem_of_dom; by rewrite Hdom).
    destruct (Hfresh pro s Hs) as (Hm & Hd & n & Hn & Hms & Hds).
    change (length MODELS) with 5%nat in Hn.
    rewrite Hearly in Hms by lia. rewrite Hearly in Hds by lia.
    rewrite Hs. destruct s. cbn in *. by subst. }
  clear Hfresh.
  (* first request, at T0 *)
  assert (w1 = mkWorld (<[pro := mkWindowState T0 T0 1 1]> d)
                 (state_file w1) (log w1) clk 11) as Hw1.
  { unfold w1.
    rewrite (log_request_known MODELS pro lim (mkWindowState T0 T0 0 0)
               (mkWorld d (Some (Json d)) [] clk 10) Hlim Hs0).
    unfold logged, rollover, rollover_day, rollover_minute. cbn.
    rewrite (Hearly 10%nat) by lia. cbn. rewrite !Qle_bool_same. reflexivity. }
  clearbody w1.
  assert (fst r1 = fst r1 /\ snd r1 = tick w1) as [_ Hr1]
    by (split; [reflexivity|exact (get_limits_world MODELS w1)]).
  assert (entry (fst r1) pro = Some (mkStatus 1 49)) as He1.
  { unfold r1.
    rewrite (get_limits_entry MODELS w1 pro (mkWindowState T0 T0 1 1) lim);
      [| rewrite Hw1; cbn; rewrite dom_insert_L, Hdom; set_solver
       | rewrite Hw1; cbn; apply lookup_insert_eq
       | exact Hlim ].
    rewrite Hw1. cbn. rewrite (Hearly 11%nat) by lia.
    unfold status_of. cbn. rewrite !Qle_bool_same. reflexivity. }
  clearbody r1.
  (* second request, thirty seconds later *)
  assert (w2 = mkWorld (<[pro := mkWindowState T0 T0 2 2]> d)
                 (state_file w2) (log w2) clk 13) as Hw2.
  { unfold w2. rewrite Hr1.
    rewrite (log_request_known MODELS pro lim (mkWindowState T0 T0 1 1) (tick w1) Hlim);
      [| rewrite Hw1; cbn; apply lookup_insert_eq ].
    rewrite Hw1. unfold logged, rollover, rollover_day, rollover_minute. cbn.
    rewrite Hc12. cbn. rewrite !Qle_bool_elapsed. cbn.
    rewrite insert_insert_eq. reflexivity. }
  clearbody w2.
  assert (snd r2 = tick w2) as Hr2 by exact (get_limits_world MODELS w2).
  assert (entry (fst r2) pro = Some (mkStatus 0 48)) as He2.
  { unfold r2.
    rewrite (get_limits_entry MODELS w2 pro (mkWindowState T0 T0 2 2) lim);
      [| rewrite Hw2; cbn; rewrite dom_insert_L, Hdom; set_solver
       | rewrite Hw2; cbn; apply lookup_insert_eq
       | exact Hlim ].
    rewrite Hw2. cbn. rewrite Hc13.
    unfold status_of. cbn. rewrite !Qle_bool_elapsed. reflexivity. }
  clearbody r2.
  (* sixty-five seconds after T0 *)
  assert (entry (fst r3) pro = Some (mkStatus 2 48)) as He3.
  { unfold r3. rewrite Hr2.
    rewrite (get_limits_entry MODELS (tick w2) pro (mkWindowState T0 T0 2 2) lim);
      [| rewrite Hw2; cbn; rewrite dom_insert_L, Hdom; set_solver
       | rewrite Hw2; cbn; apply lookup_insert_eq
       | exact Hlim ].
    rewrite Hw2. cbn. rewrite Hc14.
    unfold status_of. cbn. rewrite !Qle_bool_elapsed. reflexivity. }
  clearbody r3.
  split; [exact Hlim|].
  split; [cbn; apply Hearly; lia|].
  split; [rewrite Hw1; cbn; apply Hearly; lia|].
  split; [exact He1|].
  split; [rewrite Hr1, Hw1; cbn; exact Hc12|].
  split; [rewrite Hw2; cbn; exact Hc13|].
  split; [exact He2|].
  split; [rewrite Hr2, Hw2; cbn; exact Hc14|].
  exact He3.
Qed.

(** *** Construction and persistence *)

(** C6, as the code has it: without a state file the constructor does not
    raise; it gives every configured model a record with both counts at 0
    and window starts read from the clock while it initializes, and writes
    that state to the file.  A state file that [json.load] rejects makes the
    constructor raise the decoding error: no tracker is constructed and the
    file is left as it was. *)
Theorem C6_missing_store_fresh_corrupt_store_raises models clk :
  (exists d,
     __init__ models (boot None clk) =
       (Ok tt, mkWorld d (Some (Json d)) [] clk (2 * length models)%nat) /\
     dom d = dom (models_dict models) /\
     forall model s, d !! model = Some s ->
       minute_requests s = 0 /\ daily_requests s = 0 /\
       exists n, (n < length models)%nat /\
         minute_start s = clk (2 * n)%nat /\ day_start s = clk (2 * n + 1)%nat) /\
  __init__ models (boot (Some Malformed) clk) =
    (Raise JSONDecodeError, boot (Some Malformed) clk).
Proof.
  split; [apply init_fresh|apply init_malformed].
Qed.

(** C6 fails as stated: constructing the tracker over a state file whose
    content does not parse raises. *)
Lemma C6_corrupt_store_raises :
  fst (__init__ MODELS (boot (Some Malformed) (fixed_clock 1000))) =
    Raise JSONDecodeError.
Proof. reflexivity. Qed.

(** C7: saving a tracker state and constructing a new tracker over the
    saved file gives a tracker with the same state, whose [get_limits]
    returns, at the same observation time, what the original's returns. *)
Theorem C7_save_then_load_same_limits models w clk :
  clk 0%nat = clock w (ticks w) ->
  let saved := snd (save_state w) in
  let fresh := __init__ models (boot (state_file saved) clk) in
  fst (save_state w) = Ok tt /\
  fst fresh = Ok tt /\
  state (snd fresh) = state w /\
  fst (get_limits models (snd fresh)) = fst (get_limits models saved) /\
  fst (get_limits models (snd fresh)) = fst (get_limits models w).
Proof.
  intros Hnow saved fresh.
  unfold fresh, saved. cbn. rewrite init_loaded. cbn.
  repeat split; by apply get_limits_ext.
Qed.

Lemma C7_witness :
  let w := snd (log_request MODELS "gemini-1.5-pro" (sample_world 1075)) in
  let fresh := __init__ MODELS (boot (state_file (snd (save_state w))) (fixed_clock 1075)) in
  fst fresh = Ok tt /\
  state (snd fresh) = state w /\
  fst (get_limits MODELS (snd fresh)) = fst (get_limits MODELS w).
Proof.
  intros w fresh.
  destruct (C7_save_then_load_same_limits MODELS w (fixed_clock 1075) eq_refl)
    as (_ & Hok & Hst & _ & Hget).
  exact (conj Hok (conj Hst Hget)).
Defined.

(** C8: two calls of [get_limits] in a row that read the same time return
    the same result, and neither changes a record of the tracker state nor
    the state file. *)
Theorem C8_get_limits_idempotent models w :
  clock w (S (ticks w)) = clock w (ticks w) ->
  let first := get_limits models w in
  let second := get_limits models (snd first) in
  fst second = fst first /\
  state (snd first) = state w /\
  state (snd second) = state w /\
  state_file (snd first) = state_file w /\
  state_file (snd second) = state_file w.
Proof.
  intros Hnow first second. unfold second, first.
  rewrite !get_limits_world. cbn. repeat split.
  apply get_limits_ext; [done|]. by cbn.
Qed.

Lemma C8_witness :
  let first := get_limits MODELS (sample_world 1075) in
  let second := get_limits MODELS (snd first) in
  fst second = fst first /\ state (snd second) = state (sample_world 1075).
Proof.
  intros first second.
  destruct (C8_get_limits_idempotent MODELS (sample_world 1075) eq_refl)
    as (Hsame & _ & Hst & _).
  exact (conj Hsame Hst).
Defined.

Lemma count_request_rollover_counts now s :
  minute_requests (count_request (rollover now s)) =
    (if Qle_bool 60 (now - minute_start s) then 0 else minute_requests s) + 1 /\
  daily_requests (count_request (rollover now s)) =
    (if Qle_bool 86400 (now - day_start s) then 0 else daily_requests s) + 1.
Proof.
  unfold count_request, rollover, rollover_day, rollover_minute.
  destruct (Qle_bool 60 _); cbn; destruct (Qle_bool 86400 _); cbn; done.
Qed.

(** C9: after a construction without a state file and any sequence of
    [log_request] and [get_limits] calls, no call has raised and no count
    is negative; and the next [log_request] of a configured model, whose
    record the tracker then holds, leaves each count of that record at
    exactly one more than it was when the window of the count has not
    expired at the time read, and at exactly 0 plus one when it has.  The
    same holds of [log_request] on any record a tracker holds. *)
Theorem C9_counts_nonnegative_step_by_one models clk cs :
  let r := (__init__ models;; run_calls models cs) (boot None clk) in
  let w := snd r in
  let now := clock w (ticks w) in
  (fst r = Ok tt /\
   forall model s, state w !! model = Some s ->
     0 <= minute_requests s /\ 0 <= daily_requests s) /\
  (forall model, model ∈ dom (models_dict models) ->
     exists s s',
       state w !! model = Some s /\
       state (snd (log_request models model w)) !! model = Some s' /\
       minute_requests s' =
         (if Qle_bool 60 (now - minute_start s) then 0 else minute_requests s) + 1 /\
       daily_requests s' =
         (if Qle_bool 86400 (now - day_start s) then 0 else daily_requests s) + 1) /\
  forall w0 model limits s,
    models_dict models !! model = Some limits ->
    state w0 !! model = Some s ->
    exists s',
      state (snd (log_request models model w0)) !! model = Some s' /\
      minute_requests s' =
        (if Qle_bool 60 (clock w0 (ticks w0) - minute_start s)
         then 0 else minute_requests s) + 1 /\
      daily_requests s' =
        (if Qle_bool 86400 (clock w0 (ticks w0) - day_start s)
         then 0 else daily_requests s) + 1.
Proof.
  intros r w now.
  assert (forall w0 model limits s,
            models_dict models !! model = Some limits ->
            state w0 !! model = Some s ->
            exists s',
              state (snd (log_request models model w0)) !! model = Some s' /\
              minute_requests s' =
                (if Qle_bool 60 (clock w0 (ticks w0) - minute_start s)
                 then 0 else minute_requests s) + 1 /\
              daily_requests s' =
                (if Qle_bool 86400 (clock w0 (ticks w0) - day_start s)
                 then 0 else daily_requests s) + 1) as Hstep.
  { intros w0 model limits s Hlim Hs.
    rewrite (log_request_known models model limits s w0 Hlim Hs). cbn.
    exists (count_request (rollover (clock w0 (ticks w0)) s)).
    split; [apply lookup_insert_eq|].
    apply count_request_rollover_counts. }
  destruct (init_fresh models clk) as (d & Hinit & Hdom & Hfresh).
  destruct (run_calls_inv models cs
              (mkWorld d (Some (Json d)) [] clk (2 * length models)%nat))
    as (w' & Hrun & Hdom' & Hnn).
  { exact Hdom. }
  { intros k s Hs. destruct (Hfresh k s Hs) as (Hm & Hd & _).
    unfold counts_nonneg. cbn in Hs. lia. }
  assert (r = (Ok tt, w')) as Hr.
  { unfold r, mbind, M_bind. by rewrite Hinit. }
  unfold now, w. rewrite Hr. cbn.
  split; [|split].
  - split; [done|]. intros model s Hs. exact (Hnn model s Hs).
  - intros model Hin.
    assert (is_Some (state w' !! model)) as [s Hs]
      by (apply elem_of_dom; by rewrite Hdom').
    apply elem_of_dom in Hin as [limits Hlim].
    destruct (Hstep w' model limits s Hlim Hs) as (s' & Hs' & Hm & Hd).
    by exists s, s'.
  - exact Hstep.
Qed.



(** ** Further properties of the tracker *)

Section Calls.

Variable models : list (string * Limit).

(** A configured model without a record: the clock has been read when the
    lookup raises, and nothing else has happened. *)
Lemma log_request_missing model limits w :
  models_dict models !! model = Some limits ->
  state w !! model = None ->
  log_request models model w = (Raise KeyError, tick w).
Proof.
  intros Hlim Hs. unfold log_request.
  rewrite bool_decide_eq_false_2
    by (intros Hn; apply not_elem_of_dom in Hn; congruence).
  run. by rewrite Hs.
Qed.

(** The three ways a [log_request] can go. *)
Lemma log_request_cases model w :
  (models_dict models !! model = None /\
   log_request models model w =
     (Ok true, mkWorld (state w) (state_file w) (log w ++ [LogError model])
                       (clock w) (ticks w))) \/
  (exists limits, models_dict models !! model = Some limits /\
     state w !! model = None /\
     log_request models model w = (Raise KeyError, tick w)) \/
  (exists limits s, models_dict models !! model = Some limits /\
     state w !! model = Some s /\
     log_request models model w = (Ok true, logged model limits s w)).
Proof.
  destruct (models_dict models !! model) as [limits|] eqn:Hlim.
  - destruct (state w !! model) as [s|] eqn:Hs.
    + right; right. exists limits, s. by rewrite (log_request_known _ _ _ _ _ Hlim Hs).
    + right; left. exists limits. by rewrite (log_request_missing _ _ _ Hlim Hs).
  - left. by rewrite (log_request_unknown _ _ _ Hlim).
Qed.

Lemma run_call_world c w :
  snd (run_call models c w) =
    match c with
    | Call_log_request model => snd (log_request models model w)
    | Call_get_limits => tick w
    end.
Proof.
  destruct c as [model|]; cbn; unfold mbind, M_bind.
  - by destruct (log_request models model w) as [[?|?] ?].
  - rewrite <- (get_limits_world models).
    by destruct (get_limits models w) as [[?|?] ?].
Qed.

(** What [log_request] and a reading of the clock preserve, every sequence
    of calls preserves, whether or not one of them raises. *)
Lemma run_calls_preserves (P : World -> Prop) :
  (forall model w, P w -> P (snd (log_request models model w))) ->
  (forall w, P w -> P (tick w)) ->
  forall cs w, P w -> P (snd (run_calls models cs w)).
Proof.
  intros Hlog Htick cs. induction cs as [|c rest IH]; intros w Hw; [done|].
  assert (P (snd (run_call models c w))) as Hstep.
  { rewrite run_call_world. destruct c; auto. }
  cbn. unfold mbind, M_bind.
  destruct (run_call models c w) as [[[]|e] w1]; cbn in *; auto.
Qed.

Lemma log_request_dom model w :
  dom (state (snd (log_request models model w))) = dom (state w).
Proof.
  destruct (log_request_cases model w)
    as [[_ ->]|[(limits & _ & _ & ->)|(limits & s & _ & Hs & ->)]]; cbn; try done.
  rewrite dom_insert_L.
  assert (model ∈ dom (state w)) by (apply elem_of_dom; eauto).
  set_solver.
Qed.

End Calls.

(** The state file of a tracker that was constructed follows its state. *)
Lemma constructed_file_follows_state models
    (stored : option (gmap string WindowState)) clk cs :
  let r := (__init__ models;; run_calls models cs) (boot (Json <$> stored) clk) in
  state_file (snd r) = Some (Json (state (snd r))).
Proof.
  intros r.
  assert (exists w0, __init__ models (boot (Json <$> stored) clk) = (Ok tt, w0) /\
                     state_file w0 = Some (Json (state w0))) as (w0 & Hinit & Hw0).
  { destruct stored as [d|]; cbn.
    - eexists. by rewrite init_loaded.
    - destruct (init_fresh models clk) as (d & Hinit & _). eexists. by rewrite Hinit. }
  assert (r = run_calls models cs w0) as ->.
  { unfold r, mbind, M_bind. by rewrite Hinit. }
  apply (run_calls_preserves models
           (fun w => state_file w = Some (Json (state w)))); [| |done].
  - intros model w Hw.
    by destruct (log_request_cases models model w)
      as [[_ ->]|[(limits & _ & _ & ->)|(limits & s & _ & _ & ->)]].
  - by intros w Hw.
Qed.

(** X1: the tracker writes through.  Once it is constructed, over no state
    file or over one that holds complete window records, the state file
    holds exactly the tracker state after every sequence of calls, a
    sequence cut short by an exception included. *)
Theorem X1_state_file_mirrors_state models
    (stored : option (gmap string WindowState)) clk cs :
  let r := (__init__ models;; run_calls models cs) (boot (Json <$> stored) clk) in
  state_file (snd r) = Some (Json (state (snd r))).
Proof. apply constructed_file_follows_state. Qed.

(** X2: no call adds or removes a record.  A tracker whose loaded state
    does not fit the configuration therefore never recovers: after any
    sequence of calls, [log_request] of a configured model without a record
    still raises, and so does [get_limits] when a record belongs to no
    configured model. *)
Theorem X2_records_never_added_or_removed models cs w :
  let w' := snd (run_calls models cs w) in
  dom (state w') = dom (state w) /\
  (forall model, model ∈ dom (models_dict models) -> model ∉ dom (state w) ->
     fst (log_request models model w') = Raise KeyError) /\
  (~ dom (state w) ⊆ dom (models_dict models) ->
     fst (get_limits models w') = Raise KeyError).
Proof.
  intros w'.
  assert (dom (state w') = dom (state w)) as Hdom.
  { apply (run_calls_preserves models (fun w1 => dom (state w1) = dom (state w)));
      [| |done].
    - intros model w1 Hw1. by rewrite log_request_dom.
    - by intros w1 Hw1. }
  split; [done|]. split.
  - intros model Hin Hout.
    apply elem_of_dom in Hin as [limits Hlim].
    rewrite <- Hdom in Hout. apply not_elem_of_dom in Hout.
    by rewrite (log_request_missing models model limits w' Hlim Hout).
  - intros Hsub. rewrite <- Hdom in Hsub.
    by rewrite (get_limits_raise models w' Hsub).
Qed.

(** X3: a request is counted against its own model only.  [log_request]
    leaves the record of every other model as it was, and with it the entry
    [get_limits] computes for that model at a given time. *)
Theorem X3_log_request_leaves_other_models models model other w :
  other <> model ->
  let w' := snd (log_request models model w) in
  state w' !! other = state w !! other /\
  (clock w' (ticks w') = clock w (ticks w) ->
   entry (fst (get_limits models w')) other =
     entry (fst (get_limits models w)) other).
Proof.
  intros Hne w'.
  assert (state w' !! other = state w !! other) as Hother.
  { unfold w'.
    destruct (log_request_cases models model w)
      as [[_ ->]|[(limits & _ & _ & ->)|(limits & s & _ & _ & ->)]]; cbn; try done.
    by rewrite lookup_insert_ne. }
  split; [done|]. intros Hnow.
  assert (dom (state w') = dom (state w)) as Hdom by apply log_request_dom.
  destruct (decide (dom (state w) ⊆ dom (models_dict models))) as [Hsub|Hnsub].
  - destruct (get_limits_ok models w Hsub) as (status & -> & Hlook).
    destruct (get_limits_ok models w') as (status' & -> & Hlook');
      [by rewrite Hdom|].
    cbn. by rewrite Hlook, Hlook', Hother, Hnow.
  - rewrite (get_limits_raise models w Hnsub).
    rewrite (get_limits_raise models w'); [done|by rewrite Hdom].
Qed.

Lemma X3_witness :
  let w' := snd (log_request MODELS "gemini-1.5-pro" (sample_world 1075)) in
  state w' !! "gemini-1.5-flash" = state (sample_world 1075) !! "gemini-1.5-flash".
Proof.
  intros w'.
  refine (proj1 (X3_log_request_leaves_other_models MODELS "gemini-1.5-pro"
                   "gemini-1.5-flash" (sample_world 1075) _)).
  intros Heq. discriminate Heq.
Defined.

Lemma rollover_within now s :
  Qle_bool 60 (now - minute_start s) = false ->
  Qle_bool 86400 (now - day_start s) = false ->
  rollover now s = s.
Proof.
  intros Hm Hd. unfold rollover, rollover_day, rollover_minute.
  by rewrite Hm, Hd.
Qed.

(** X4: as long as neither window of a model expires, its requests add
    up: [n] calls of [log_request] leave both counts [n] higher and the
    window starts where they were, and [get_limits] then shows the limits
    minus these counts, below zero once a cap is passed. *)
Theorem X4_requests_within_window_add_up models model limits s w n :
  models_dict models !! model = Some limits ->
  state w !! model = Some s ->
  (forall i, (i <= n)%nat ->
     Qle_bool 60 (clock w (ticks w + i)%nat - minute_start s) = false /\
     Qle_bool 86400 (clock w (ticks w + i)%nat - day_start s) = false) ->
  let r := run_calls models (replicate n (Call_log_request model)) w in
  let s' := mkWindowState (minute_start s) (day_start s)
              (minute_requests s + Z.of_nat n) (daily_requests s + Z.of_nat n) in
  fst r = Ok tt /\
  ticks (snd r) = (ticks w + n)%nat /\
  clock (snd r) = clock w /\
  state (snd r) = <[model := s']> (state w) /\
  (dom (state w) ⊆ dom (models_dict models) ->
   entry (fst (get_limits models (snd r))) model =
     Some (mkStatus (rpm limits - (minute_requests s + Z.of_nat n))
                    (daily limits - (daily_requests s + Z.of_nat n)))).
Proof.
  intros Hlim. revert s w. induction n as [|n IH]; intros s w Hs Hopen r s'.
  - assert (s' = s) as -> by (unfold s'; destruct s; cbn; f_equal; lia).
    unfold r. cbn. rewrite insert_id by done.
    split; [done|]. split; [lia|]. split; [done|]. split; [done|].
    intros Hsub. rewrite (get_limits_entry models w model s limits Hsub Hs Hlim).
    destruct (Hopen 0%nat) as [Hm Hd]; [lia|]. rewrite Nat.add_0_r in Hm, Hd.
    unfold status_of. rewrite Hm, Hd. do 2 f_equal; lia.
  - destruct (Hopen 0%nat) as [Hm0 Hd0]; [lia|]. rewrite Nat.add_0_r in Hm0, Hd0.
    set (w1 := logged model limits s w).
    assert (state w1 = <[model := count_request s]> (state w) /\
            ticks w1 = S (ticks w) /\ clock w1 = clock w) as (Hst1 & Htk1 & Hclk1).
    { unfold w1, logged. cbn. by rewrite (rollover_within _ _ Hm0 Hd0). }
    assert (r = run_calls models (replicate n (Call_log_request model)) w1) as ->.
    { unfold r. cbn. unfold mbind, M_bind.
      by rewrite (log_request_known models model limits s w Hlim Hs). }
    destruct (IH (count_request s) w1) as (Hok & Htk & Hclk & Hst & Hget).
    + by rewrite Hst1, lookup_insert_eq.
    + intros i Hi. rewrite Hclk1, Htk1. cbn.
      replace (S (ticks w + i)) with (ticks w + S i)%nat by lia.
      apply Hopen. lia.
    + assert (mkWindowState (minute_start (count_request s))
                (day_start (count_request s))
                (minute_requests (count_request s) + Z.of_nat n)
                (daily_requests (count_request s) + Z.of_nat n) = s') as Hs'.
      { unfold s'. cbn. f_equal; lia. }
      rewrite Hs' in Hst.
      split; [done|]. split; [lia|]. split; [congruence|]. split.
      * by rewrite Hst, Hst1, insert_insert_eq.
      * intros Hsub. rewrite Hget.
        -- cbn. do 2 f_equal; lia.
        -- rewrite Hst1, dom_insert_L.
           assert (model ∈ dom (state w)) by (apply elem_of_dom; eauto).
           set_solver.
Qed.

Lemma X4_witness :
  let r := run_calls MODELS (replicate 3 (Call_log_request "gemini-1.5-pro"))
             (sample_world 1010) in
  fst r = Ok tt /\
  state (snd r) = <["gemini-1.5-pro" := mkWindowState 1000 1000 3 3]>
                    (state (sample_world 1010)) /\
  entry (fst (get_limits MODELS (snd r))) "gemini-1.5-pro" = Some (mkStatus (-1) 47).
Proof.
  intros r.
  assert (dom (state (sample_world 1010)) ⊆ dom (models_dict MODELS)) as Hsub
    by (refine (bool_decide_unpack _ _); vm_compute; exact I).
  destruct (X4_requests_within_window_add_up MODELS "gemini-1.5-pro" (mkLimit 2 50)
              (mkWindowState 1000 1000 0 0) (sample_world 1010) 3 eq_refl eq_refl)
    as (Hok & _ & _ & Hst & Hget).
  - intros i _. split; reflexivity.
  - exact (conj Hok (conj Hst (Hget Hsub))).
Defined.

Lemma status_after_request limits now s :
  status_of limits now (count_request (rollover now s)) =
    mkStatus (remaining_minute (status_of limits now s) - 1)
             (remaining_daily (status_of limits now s) - 1).
Proof.
  unfold status_of, rollover, rollover_day, rollover_minute, count_request.
  destruct (Qle_bool 60 (now - minute_start s)) eqn:Hm; cbn;
    destruct (Qle_bool 86400 (now - day_start s)) eqn:Hd; cbn;
    rewrite ?Qle_bool_same, ?Hm, ?Hd; cbn; f_equal; lia.
Qed.

(** X5: a request lowers the displayed allowance by exactly one.  When
    [get_limits], [log_request] of a configured model and [get_limits]
    again read the same time, the second status shows, for that model, one
    less per minute and one less per day than the first. *)
Theorem X5_request_lowers_allowance_by_one models model limits s w :
  models_dict models !! model = Some limits ->
  state w !! model = Some s ->
  dom (state w) ⊆ dom (models_dict models) ->
  clock w (S (ticks w)) = clock w (ticks w) ->
  clock w (S (S (ticks w))) = clock w (ticks w) ->
  let before := get_limits models w in
  let request := log_request models model (snd before) in
  let after := get_limits models (snd request) in
  exists a b,
    entry (fst before) model = Some (mkStatus a b) /\
    fst request = Ok true /\
    entry (fst after) model = Some (mkStatus (a - 1) (b - 1)).
Proof.
  intros Hlim Hs Hsub Hc1 Hc2 before request after.
  set (now := clock w (ticks w)).
  exists (remaining_minute (status_of limits now s)),
         (remaining_daily (status_of limits now s)).
  assert (snd before = tick w) as Hbefore by apply get_limits_world.
  split; [|split].
  - unfold before. rewrite (get_limits_entry models w model s limits Hsub Hs Hlim).
    fold now. by destruct (status_of limits now s).
  - unfold request. rewrite Hbefore.
    by rewrite (log_request_known models model limits s (tick w) Hlim Hs).
  - unfold after, request. rewrite Hbefore.
    rewrite (log_request_known models model limits s (tick w) Hlim Hs).
    rewrite (get_limits_entry models _ model
               (count_request (rollover now s)) limits).
    + cbn. rewrite Hc2. fold now. f_equal. apply status_after_request.
    + cbn. rewrite dom_insert_L.
      assert (model ∈ dom (state w)) by (apply elem_of_dom; eauto).
      set_solver.
    + cbn. rewrite Hc1. apply lookup_insert_eq.
    + done.
Qed.

Lemma X5_witness :
  let before := get_limits MODELS (sample_world 1075) in
  let request := log_request MODELS "gemini-1.5-pro" (snd before) in
  let after := get_limits MODELS (snd request) in
  exists a b,
    entry (fst before) "gemini-1.5-pro" = Some (mkStatus a b) /\
    fst request = Ok true /\
    entry (fst after) "gemini-1.5-pro" = Some (mkStatus (a - 1) (b - 1)).
Proof.
  assert (dom (state (sample_world 1075)) ⊆ dom (models_dict MODELS)) as Hsub
    by (refine (bool_decide_unpack _ _); vm_compute; exact I).
  exact (X5_request_lowers_allowance_by_one MODELS "gemini-1.5-pro" (mkLimit 2 50)
           (mkWindowState 1000 1000 0 0) (sample_world 1075)
           eq_refl eq_refl Hsub eq_refl eq_refl).
Defined.

(** X6: a tracker constructed without a state file never shows more than
    the caps: after any sequence of calls [get_limits] returns, and each
    entry is at most the per-minute and the per-day limit of its model. *)
Theorem X6_allowance_never_exceeds_cap models clk cs :
  let r := (__init__ models;; run_calls models cs) (boot None clk) in
  exists status,
    fst (get_limits models (snd r)) = Ok status /\
    forall model limits st,
      models_dict models !! model = Some limits ->
      status !! model = Some st ->
      remaining_minute st <= rpm limits /\ remaining_daily st <= daily limits.
Proof.
  intros r.
  destruct (init_fresh models clk) as (d & Hinit & Hdom & Hfresh).
  destruct (run_calls_inv models cs
              (mkWorld d (Some (Json d)) [] clk (2 * length models)%nat))
    as (w' & Hrun & Hdom' & Hnn).
  - exact Hdom.
  - intros k s Hs. destruct (Hfresh k s Hs) as (Hm & Hd & _).
    unfold counts_nonneg. cbn in Hs. lia.
  - assert (r = (Ok tt, w')) as ->.
    { unfold r, mbind, M_bind. by rewrite Hinit. }
    cbn. destruct (get_limits_ok models w') as (status & Hget & Hlook);
      [by rewrite Hdom'|].
    exists status. rewrite Hget. split; [done|].
    intros model limits st Hlim Hst. rewrite Hlook, Hlim in Hst.
    destruct (state w' !! model) as [s|] eqn:Hs; [|done].
    cbn in Hst. injection Hst as <-.
    destruct (Hnn model s Hs) as [Hm Hd].
    unfold status_of. cbn.
    destruct (Qle_bool 60 _); destruct (Qle_bool 86400 _); lia.
Qed.

(** X7: a tracker that has counted nothing shows the full caps whenever it
    is asked: right after a construction without a state file, whatever
    the clock reads, [get_limits] returns exactly one entry per configured
    model, equal to its two limits. *)
Theorem X7_untouched_tracker_reports_caps models clk :
  let w := snd (__init__ models (boot None clk)) in
  exists status,
    fst (get_limits models w) = Ok status /\
    forall model,
      status !! model =
        (fun limits => mkStatus (rpm limits) (daily limits)) <$> models_dict models !! model.
Proof.
  intros w.
  destruct (init_fresh models clk) as (d & Hinit & Hdom & Hfresh).
  assert (w = mkWorld d (Some (Json d)) [] clk (2 * length models)%nat) as ->
    by (unfold w; by rewrite Hinit).
  destruct (get_limits_ok models
              (mkWorld d (Some (Json d)) [] clk (2 * length models)%nat))
    as (status & Hget & Hlook); [cbn; by rewrite Hdom|].
  exists status. rewrite Hget. split; [done|].
  intros model. rewrite Hlook. cbn.
  destruct (d !! model) as [s|] eqn:Hs.
  - destruct (Hfresh model s Hs) as (Hm & Hd & _).
    destruct (models_dict models !! model) as [limits|]; [|done].
    cbn. unfold status_of. rewrite Hm, Hd.
    destruct (Qle_bool 60 _); destruct (Qle_bool 86400 _);
      by rewrite ?Z.sub_0_r.
  - apply not_elem_of_dom in Hs. rewrite Hdom in Hs.
    apply not_elem_of_dom in Hs. by rewrite Hs.
Qed.

(** X12: the counts survive a restart.  Whatever calls a tracker has
    served, a tracker constructed afterwards over the state file it left
    starts with exactly its state; this construction reads no clock and
    leaves the file as it is. *)
Theorem X12_restart_resumes_state models
    (stored : option (gmap string WindowState)) clk cs clk' :
  let r := (__init__ models;; run_calls models cs) (boot (Json <$> stored) clk) in
  let again := __init__ models (boot (state_file (snd r)) clk') in
  fst again = Ok tt /\
  state (snd again) = state (snd r) /\
  state_file (snd again) = state_file (snd r) /\
  ticks (snd again) = 0%nat.
Proof.
  intros r again. unfold again, r.
  rewrite (constructed_file_follows_state models stored clk cs).
  by rewrite init_loaded.
Qed.

(** X13: every window start a tracker holds is a time its clock has
    already given.  After a construction without a state file and any
    sequence of calls, the minute start and the day start of each record
    are among the readings made so far. *)
Theorem X13_window_starts_are_past_readings models clk cs :
  let w := snd ((__init__ models;; run_calls models cs) (boot None clk)) in
  clock w = clk /\
  forall model s, state w !! model = Some s ->
    (exists i, (i < ticks w)%nat /\ minute_start s = clk i) /\
    (exists j, (j < ticks w)%nat /\ day_start s = clk j).
Proof.
  intros w.
  destruct (init_fresh models clk) as (d & Hinit & _ & Hfresh).
  assert (w = snd (run_calls models cs
                     (mkWorld d (Some (Json d)) [] clk (2 * length models)%nat))) as ->.
  { unfold w, mbind, M_bind. by rewrite Hinit. }
  apply (run_calls_preserves models
           (fun w => clock w = clk /\
              forall model s, state w !! model = Some s ->
                (exists i, (i < ticks w)%nat /\ minute_start s = clk i) /\
                (exists j, (j < ticks w)%nat /\ day_start s = clk j))).
  - intros model w1 [Hclk Hpast].
    destruct (log_request_cases models model w1)
      as [[_ ->]|[(limits & _ & _ & ->)|(limits & s & _ & Hs & ->)]]; cbn.
    + done.
    + split; [done|]. intros k s Hk.
      destruct (Hpast k s Hk) as [(i & Hi & ?) (j & Hj & ?)].
      split; [exists i|exists j]; split; (lia || done).
    + split; [done|]. intros k s' Hk.
      destruct (decide (model = k)) as [->|Hne].
      * rewrite lookup_insert_eq in Hk. injection Hk as <-.
        destruct (Hpast k s Hs) as [(i & Hi & Hmi) (j & Hj & Hdj)].
        unfold count_request, rollover, rollover_day, rollover_minute. rewrite Hclk.
        destruct (Qle_bool 60 _); cbn; destruct (Qle_bool 86400 _); cbn; split;
          first [ by exists (ticks w1); split; [lia|]
                | (exists i; split; [lia|done])
                | (exists j; split; [lia|done]) ].
      * rewrite lookup_insert_ne in Hk by done.
        destruct (Hpast k s' Hk) as [(i & Hi & ?) (j & Hj & ?)].
        split; [exists i|exists j]; split; (lia || done).
  - intros w1 [Hclk Hpast]. split; [done|]. intros k s Hk. cbn in *.
    destruct (Hpast k s Hk) as [(i & Hi & ?) (j & Hj & ?)].
    split; [exists i|exists j]; split; (lia || done).
  - split; [done|]. intros k s Hk. cbn in *.
    destruct (Hfresh k s Hk) as (_ & _ & n & Hn & Hm & Hd).
    split; [exists (2 * n)%nat|exists (2 * n + 1)%nat]; split; (lia || done).
Qed.

(** ** The window *)

(** X8: [run_gemini] reports a run to the tracker exactly when the run
    passes its checks.  With a blank machine name or a blank manual the
    tracker is not touched and no worker is started; otherwise, the tracker
    holding a record for the selected model when it is configured, one
    [log_request] is made before the worker is started on the stripped
    texts, with 40 and 8192 for "gemini-1.5-flash-8b" and 64 and 65536 for
    every other model, and both buttons are disabled. *)
Theorem X8_run_gemini_counts_valid_runs_only models strip g w :
  (is_Some (models_dict models !! model_combo g) ->
   is_Some (state w !! model_combo g)) ->
  let r := run_gemini models strip g w in
  let g' := fst (snd r) in
  let w' := snd (snd r) in
  fst r = Ok tt /\
  if bool_decide (strip (machine_edit g) = "") || bool_decide (strip (input_edit g) = "")
  then
    w' = w /\ worker g' = worker g /\
    run_btn g' = run_btn g /\ save_btn g' = save_btn g /\
    length (dialogs g') = S (length (dialogs g))
  else
    w' = snd (log_request models (model_combo g) w) /\
    run_btn g' = false /\ save_btn g' = false /\ output_edit g' = "" /\
    dialogs g' = dialogs g /\
    exists config,
      worker g' = Some (mkWorker (strip (input_edit g)) (model_combo g) config
                                 (strip (machine_edit g)) (strip (qa_edit g))) /\
      top_k config =
        (if bool_decide (model_combo g = "gemini-1.5-flash-8b") then 40 else 64) /\
      max_output_tokens config =
        (if bool_decide (model_combo g = "gemini-1.5-flash-8b") then 8192 else 65536).
Proof.
  intros Hcover r g' w'. unfold g', w', r, run_gemini.
  destruct (bool_decide (strip (machine_edit g) = "")); cbn.
  { repeat split. by rewrite length_app, Nat.add_1_r. }
  destruct (bool_decide (strip (input_edit g) = "")); cbn.
  { repeat split. by rewrite length_app, Nat.add_1_r. }
  assert (exists w1, log_request models (model_combo g) w = (Ok true, w1)) as [w1 Hlog].
  { destruct (log_request_cases models (model_combo g) w)
      as [[_ ->]|[(limits & Hlim & Hs & _)|(limits & s & _ & _ & ->)]]; eauto.
    destruct Hcover as [s Hs']; [eauto|congruence]. }
  rewrite Hlog. cbn. repeat split.
  eexists. split; [reflexivity|].
  by destruct (bool_decide (model_combo g = "gemini-1.5-flash-8b")).
Qed.

Lemma X8_witness :
  let g := sample_window "gemini-1.5-flash-8b" "  CNC Lathe " "Main Spindle, part number 1234567" in
  let r := run_gemini MODELS ascii_strip g (sample_world 1075) in
  fst r = Ok tt /\
  snd (snd r) = snd (log_request MODELS "gemini-1.5-flash-8b" (sample_world 1075)) /\
  (worker_machine_name <$> worker (fst (snd r))) = Some "CNC Lathe" /\
  (top_k ∘ worker_generation_config <$> worker (fst (snd r))) = Some 40.
Proof.
  intros g r.
  assert (is_Some (models_dict MODELS !! model_combo g) ->
          is_Some (state (sample_world 1075) !! model_combo g)) as Hcover
    by (intros _; exists (mkWindowState 1000 1000 0 0); reflexivity).
  destruct (X8_run_gemini_counts_valid_runs_only MODELS ascii_strip g
              (sample_world 1075) Hcover) as (Hok & Hrun).
  change (snd (snd r) = snd (log_request MODELS "gemini-1.5-flash-8b" (sample_world 1075)) /\
          run_btn (fst (snd r)) = false /\ save_btn (fst (snd r)) = false /\
          output_edit (fst (snd r)) = "" /\ dialogs (fst (snd r)) = dialogs g /\
          exists config,
            worker (fst (snd r)) =
              Some (mkWorker (ascii_strip (input_edit g)) (model_combo g) config
                             (ascii_strip (machine_edit g)) (ascii_strip (qa_edit g))) /\
            top_k config = 40 /\ max_output_tokens config = 8192) in Hrun.
  destruct Hrun as (Hw & _ & _ & _ & _ & config & Hworker & Htop & _).
  split; [exact Hok|]. split; [exact Hw|].
  rewrite Hworker. cbn. split; [reflexivity|]. by rewrite Htop.
Defined.

(** X9: the advisory blocks the run when the record is missing.  If the
    checks pass and the selected model is configured but the tracker holds
    no record for it, [run_gemini] raises [KeyError] out of [log_request]:
    the clock has been read, nothing is counted or saved, the window is as
    it was and no worker is started. *)
Theorem X9_run_gemini_blocked_without_record models strip g w :
  strip (machine_edit g) <> "" ->
  strip (input_edit g) <> "" ->
  is_Some (models_dict models !! model_combo g) ->
  state w !! model_combo g = None ->
  run_gemini models strip g w = (Raise KeyError, (g, tick w)).
Proof.
  intros Hmachine Hinput [limits Hlim] Hs. unfold run_gemini.
  rewrite !bool_decide_eq_false_2 by done.
  by rewrite (log_request_missing models (model_combo g) limits w Hlim Hs).
Qed.

Lemma X9_witness :
  let g := sample_window "gemini-1.5-pro" "CNC Lathe" "Main Spindle, part number 1234567" in
  let w := snd (__init__ MODELS (boot (Some (Json stale_store)) (fixed_clock 1000))) in
  run_gemini MODELS ascii_strip g w = (Raise KeyError, (g, tick w)).
Proof.
  intros g w.
  apply (X9_run_gemini_blocked_without_record MODELS ascii_strip g w).
  - intros Heq. vm_compute in Heq. discriminate Heq.
  - intros Heq. vm_compute in Heq. discriminate Heq.
  - exists (mkLimit 2 50). reflexivity.
  - reflexivity.
Defined.

(** X10: the window can be constructed exactly when the state file fits.
    Of the state files that are absent, rejected by [json.load] or made of
    complete window records, [init_rate_limiter] returns on the absent
    ones and on those whose records all belong to configured models; a
    file that does not parse, or a record of a model outside the
    configuration, makes it raise. *)
Theorem X10_window_starts_iff_state_file_fits models g file clk :
  fst (init_rate_limiter models g (boot file clk)) = Ok tt <->
  file = None \/
  exists d, file = Some (Json d) /\ dom d ⊆ dom (models_dict models).
Proof.
  assert (forall w, dom (state w) ⊆ dom (models_dict models) ->
            fst (update_limits_display models g w) = Ok tt) as Hshow.
  { intros w Hsub. unfold update_limits_display.
    destruct (get_limits_ok models w Hsub) as (status & -> & _).
    by destruct (status !! model_combo g). }
  unfold init_rate_limiter. destruct file as [[|d]|].
  - rewrite init_malformed. cbn. split; [done|].
    intros [?|(d & ? & _)]; done.
  - rewrite init_loaded.
    destruct (decide (dom d ⊆ dom (models_dict models))) as [Hsub|Hnsub].
    + split; [eauto|]. intros _. by apply Hshow.
    + unfold update_limits_display.
      rewrite (get_limits_raise models (mkWorld d (Some (Json d)) [] clk 0) Hnsub).
      cbn. split; [done|]. intros [?|(d' & [= <-] & Hsub)]; done.
  - destruct (init_fresh models clk) as (d & -> & Hdom & _).
    split; [eauto|]. intros _. apply Hshow. cbn. by rewrite Hdom.
Qed.

(** X11: [update_limits_display] shows what [get_limits] computes and
    changes nothing in the tracker.  The tracker state holding records of
    configured models only, it appends to the log the two allowances of the
    selected model, counted from the limits after the window tests at the
    time read, or the one line saying that there is no information when
    the tracker holds no record for that model. *)
Theorem X11_update_limits_display_shows_get_limits models g w :
  dom (state w) ⊆ dom (models_dict models) ->
  let now := clock w (ticks w) in
  let r := update_limits_display models g w in
  fst r = Ok tt /\
  state (snd (snd r)) = state w /\
  state_file (snd (snd r)) = state_file w /\
  fst (snd r) =
    gui_log
      match state w !! model_combo g, models_dict models !! model_combo g with
      | Some s, Some limits =>
          [Line_current_limits (model_combo g);
           Line_remaining_minute (rpm limits - minute_requests (rollover now s));
           Line_remaining_day (daily limits - daily_requests (rollover now s))]
      | _, _ => [Line_no_information (model_combo g)]
      end g.
Proof.
  intros Hsub now r. unfold r, update_limits_display.
  destruct (get_limits_ok models w Hsub) as (status & -> & Hlook).
  rewrite Hlook.
  destruct (state w !! model_combo g) as [s|] eqn:Hs; cbn.
  - assert (is_Some (models_dict models !! model_combo g)) as [limits ->].
    { apply elem_of_dom, Hsub, elem_of_dom. eauto. }
    cbn. unfold now, rollover, rollover_day, rollover_minute.
    destruct (Qle_bool 60 _); cbn; destruct (Qle_bool 86400 _); cbn;
      by rewrite ?Z.sub_0_r.
  - done.
Qed.

Lemma X11_witness :
  let r := update_limits_display MODELS
             (sample_window "gemini-exp-1206" "" "") (sample_world 1075) in
  fst r = Ok tt /\
  log_edit (fst (snd r)) = [Line_no_information "gemini-exp-1206"].
Proof.
  intros r.
  assert (dom (state (sample_world 1075)) ⊆ dom (models_dict MODELS)) as Hsub
    by (refine (bool_decide_unpack _ _); vm_compute; exact I).
  destruct (X11_update_limits_display_shows_get_limits MODELS
              (sample_window "gemini-exp-1206" "" "") (sample_world 1075) Hsub)
    as (Hok & _ & _ & Hwin).
  split; [exact Hok|]. fold r in Hwin. rewrite Hwin. reflexivity.
Defined.
